(** * StoryBoard: the tasks REST controller and its error kinds

    A shallow embedding of [storyboard/api/v1/tasks.py] (the
    [TasksController] of the v1 API) and of the [NotFound] branch of
    [storyboard/common/exception.py], together with the properties the
    specification states about listing, creating, updating and deleting
    tasks.

    The controller is a thin layer over two collaborators it treats as
    opaque services: the persistence API [storyboard.db.api.tasks] and the
    event sink [storyboard.db.api.timeline_events].  The former is an
    interface ([Collaborators]) every property quantifies over; the calls
    of the latter are recorded, with their arguments, in a trace. *)

From Stdlib Require Import ZArith String List DecimalString.
From stdpp Require Import base option list gmap strings.

Local Open Scope Z_scope.
Local Open Scope string_scope.
Local Open Scope list_scope.

(** ** Python values *)

(** An attribute of a wsme type: never assigned ([wsme.Unset]), assigned
    [None], or assigned a value. *)
Inductive attr (A : Type) : Type :=
| Unset : attr A
| Null : attr A
| Val (v : A) : attr A.
Arguments Unset {A}.
Arguments Null {A}.
Arguments Val {A} v.

(** [obj.name = v] for a Python value [v] that is [None] or a value. *)
Definition assign {A : Type} (v : option A) : attr A :=
  match v with
  | None => Null
  | Some x => Val x
  end.

(** The Python value an attribute reads as when a row is built from it:
    [Unset] and [None] both leave the column empty. *)
Definition column {A : Type} (a : attr A) : option A :=
  match a with
  | Val v => Some v
  | Unset | Null => None
  end.

(** Python's [x != y] on values with decidable equality ([None], ints and
    text compare by value). *)
Definition py_ne {A : Type} `{EqDecision A} (x y : A) : bool :=
  negb (bool_decide (x = y)).

(** Python's [str] on an int: decimal digits, a leading minus sign for
    negative numbers. *)
Definition str (z : Z) : string := NilZero.string_of_int (Z.to_int z).

(** ** Data model *)

(** The API type [Task] of [tasks.py], with the attributes the class
    declares. *)
Record Task : Type := mkTask {
  title : attr string;
  status : attr string;
  is_active : attr bool;
  creator_id : attr Z;
  story_id : attr Z;
  project_id : attr Z;
  assignee_id : attr Z;
  priority : attr string
}.

(** [task.creator_id = v] *)
Definition set_creator_id (task : Task) (v : option Z) : Task :=
  {| title := title task;
     status := status task;
     is_active := is_active task;
     creator_id := assign v;
     story_id := story_id task;
     project_id := project_id task;
     assignee_id := assignee_id task;
     priority := priority task |}.

Module models.
(** Modelled from the spec: the database row of a task
    ([storyboard.db.models.Task], which the controller only reads
    attributes of), with the fields of the data model.  The store assigns the numeric [id]; every
    other column holds a value or [None]. *)
Record Task : Type := mk {
  id : Z;
  title : option string;
  status : option string;
  is_active : option bool;
  creator_id : option Z;
  story_id : option Z;
  project_id : option Z;
  assignee_id : option Z;
  priority : option string
}.
End models.

(** ** Exceptions *)

(** The classes of [exception.py] the controller's clients can see, and
    wsme's [ClientSideError] they derive from. *)
Inductive error_class : Type :=
| ClientSideError_class
| StoryboardException_class
| NotFound_class.

(** A raised exception.  A client-side error carries the [msg] and the
    [code] (HTTP status) wsme renders at the transport boundary;
    [AttributeError] is the interpreter's own. *)
Inductive exception : Type :=
| ClientSideError (cls : error_class) (msg : option string) (code : option Z)
| AttributeError (message : string).

(** [StoryboardException.__init__(self, message=None, status_code=None)]:
    hands both to [ClientSideError.__init__(msg=..., status_code=...)]. *)
Definition StoryboardException_init (cls : error_class)
    (message : option string) (status_code : option Z) : exception :=
  ClientSideError cls message status_code.

Definition StoryboardException
    (message : option string) (status_code : option Z) : exception :=
  StoryboardException_init StoryboardException_class message status_code.

(** [NotFound.__init__(self, message=None)]:
    [super(NotFound, self).__init__(message, 404)]. *)
Definition NotFound (message : option string) : exception :=
  StoryboardException_init NotFound_class message (Some 404).

(** The HTTP status an exception carries, if it is a client-side error. *)
Definition status_of (e : exception) : option Z :=
  match e with
  | ClientSideError _ _ code => code
  | AttributeError _ => None
  end.

(** ["Task %s not found" % id]: [get_one] and [put] format the builtin
    function [id], not [task_id]. *)
Definition task_not_found_msg : string :=
  "Task <built-in function id> not found".

(** ** Request, response and configuration *)

(** [pecan.request]: the acting identity the authentication layer left. *)
Record Request : Type := mkRequest {
  current_user_id : option Z
}.

(** [pecan.response]: the headers and the status code. *)
Record Response : Type := mkResponse {
  headers : gmap string string;
  status_code : Z
}.

(** [response.headers[name] = value] *)
Definition set_header (name value : string) (r : Response) : Response :=
  {| headers := <[name := value]> (headers r);
     status_code := status_code r |}.

(** [response.status_code = code] *)
Definition set_status_code (code : Z) (r : Response) : Response :=
  {| headers := headers r; status_code := code |}.

(** [cfg.CONF]: the two page-size options the controller reads. *)
Record Config : Type := mkConfig {
  page_size_default : Z;
  page_size_maximum : Z
}.

(** ** Timeline events *)

(** One call of [storyboard.db.api.timeline_events], with its keyword
    arguments in the order the controller writes them: [story_id],
    [task_title], [author_id], then the old and the new value.
    [task_created_event] receives the [story_id] of the request body; the
    others receive columns of a row. *)
Inductive TimelineEvent : Type :=
| task_created_event
    (story_id : attr Z) (task_title : option string) (author_id : option Z)
| task_status_changed_event
    (story_id : option Z) (task_title : option string) (author_id : option Z)
    (old_status new_status : option string)
| task_priority_changed_event
    (story_id : option Z) (task_title : option string) (author_id : option Z)
    (old_priority new_priority : option string)
| task_assignee_changed_event
    (story_id : option Z) (task_title : option string) (author_id : option Z)
    (old_assignee_id new_assignee_id : option Z)
| task_details_changed_event
    (story_id : option Z) (task_title : option string) (author_id : option Z)
| task_deleted_event
    (story_id : option Z) (task_title : option string) (author_id : option Z).

(** ** The collaborators *)

(** The persistence API [storyboard.db.api.tasks] and the two conversions
    of [storyboard.api.v1.base.APIBase] the controller calls: it is
    verified against every implementation of them.  [DB] is the state of
    the store, [Dict] what [as_dict] produces.  Reads are functions of the
    store; writes return the new store.  The arguments come in the order
    of the controller's keyword arguments.  A failure of the database
    would pass through the controller, which catches nothing; the
    collaborators here always answer. *)
Class Collaborators : Type := {
  DB : Type;
  Dict : Type;
  task_get : DB -> option Z -> option models.Task;
  task_get_all :
    DB -> option models.Task -> Z -> option Z -> option Z ->
    string -> string -> list models.Task;
  task_get_count : DB -> option Z -> option Z -> Z;
  task_create : DB -> Dict -> DB * models.Task;
  task_update : DB -> Z -> Dict -> DB * option models.Task;
  task_delete : DB -> Z -> DB;
  from_db_model : models.Task -> Task;
  as_dict : bool -> Task -> Dict
}.

(** ** Effects *)

(** The outcome of a controller action: a value, or a raised exception. *)
Inductive Result (A : Type) : Type :=
| Return (a : A)
| Raise (e : exception).
Arguments Return {A} a.
Arguments Raise {A} e.

Section Effects.
Context `{C : Collaborators}.

(** What the controller did to the outside, in the order it did it. *)
Inductive Effect : Type :=
| Emitted (e : TimelineEvent)
| Created (values : Dict)
| Updated (task_id : Z) (values : Dict)
| Deleted (task_id : Z).

Record World : Type := mkWorld {
  db : DB;
  trace : list Effect;
  response : Response
}.

(** A controller action: runs in a world, returns or raises, and leaves
    a world behind. *)
Definition M (A : Type) : Type := World -> Result A * World.

Definition ret {A : Type} (a : A) : M A := fun w => (Return a, w).

Definition raise {A : Type} (e : exception) : M A := fun w => (Raise e, w).

Definition bind {A B : Type} (m : M A) (k : A -> M B) : M B :=
  fun w =>
    match m w with
    | (Return a, w') => k a w'
    | (Raise e, w') => (Raise e, w')
    end.

(** A read of the store. *)
Definition query {A : Type} (f : DB -> A) : M A :=
  fun w => (Return (f (db w)), w).

(** A write to the store, logged as [eff]. *)
Definition command {A : Type} (eff : Effect) (f : DB -> DB * A) : M A :=
  fun w =>
    let '(d, a) := f (db w) in
    (Return a,
     {| db := d; trace := trace w ++ [eff]; response := response w |}).

(** A call of the event sink. *)
Definition emit (e : TimelineEvent) : M unit :=
  fun w =>
    (Return tt,
     {| db := db w;
        trace := trace w ++ [Emitted e];
        response := response w |}).

(** An update of [pecan.response]. *)
Definition respond (f : Response -> Response) : M unit :=
  fun w =>
    (Return tt,
     {| db := db w; trace := trace w; response := f (response w) |}).

(** [None.name] *)
Definition getattr_None {A : Type} (name : string) : M A :=
  raise (AttributeError
           ("'NoneType' object has no attribute '" +:+ name +:+ "'")).
End Effects.

Notation "x <- m ;; k" := (bind m (fun x => k))
  (at level 62, m at next level, right associativity).
Notation "'do' m ;; k" := (bind m (fun _ => k))
  (at level 62, m at next level, right associativity).

(** ** The controller *)

Module TasksController.
Section Controller.
Context `{C : Collaborators}.
(** [CONF] and [pecan.request] are ambient in the source. *)
Variable CONF : Config.
Variable request : Request.

(** A [ClientSideError] raised directly, as [get_one] and [put] do. *)
Definition not_found : exception :=
  ClientSideError ClientSideError_class (Some task_not_found_msg) (Some 404).

Definition get_one (task_id : Z) : M Task :=
  task <- query (fun d => task_get d (Some task_id)) ;;
  match task with
  | Some task => ret (from_db_model task)
  | None => raise not_found
  end.

(** The boundary check on [limit], the first three lines of [get_all]. *)
Definition effective_limit (limit : option Z) : Z :=
  let limit :=
    match limit with
    | None => page_size_default CONF
    | Some limit => limit
    end in
  Z.min (page_size_maximum CONF) (Z.max 1 limit).

(** The marker record [get_all] keeps:
    [if marker_task is None or marker_task.story_id != story_id:
       marker_task = None].  A row object is truthy, so the later
    [if marker_task:] asks the same as [is not None]. *)
Definition effective_marker
    (marker_task : option models.Task) (story_id : option Z)
    : option models.Task :=
  match marker_task with
  | None => None
  | Some t => if py_ne (models.story_id t) story_id then None else Some t
  end.

Definition get_all (story_id assignee_id marker limit : option Z)
    (sort_field sort_dir : string) : M (list Task) :=
  let limit := effective_limit limit in
  marker_task <- query (fun d => task_get d marker) ;;
  let marker_task := effective_marker marker_task story_id in
  tasks <- query (fun d =>
    task_get_all d marker_task limit assignee_id story_id
                 sort_field sort_dir) ;;
  task_count <- query (fun d => task_get_count d assignee_id story_id) ;;
  do respond (set_header "X-Limit" (str limit)) ;;
  do respond (set_header "X-Total" (str task_count)) ;;
  do match marker_task with
     | Some t => respond (set_header "X-Marker" (str (models.id t)))
     | None => ret tt
     end ;;
  ret (map from_db_model tasks).

Definition post (task : Task) : M Task :=
  let creator_id := current_user_id request in
  let task := set_creator_id task creator_id in
  created_task <- command (Created (as_dict false task))
                          (fun d => task_create d (as_dict false task)) ;;
  do emit (task_created_event (story_id task)
                              (models.title created_task)
                              creator_id) ;;
  ret (from_db_model created_task).

Definition _post_timeline_events
    (original_task updated_task : models.Task) : M unit :=
  let author_id := current_user_id request in
  let specific_change := false in
  specific_change <-
    (if py_ne (models.status original_task) (models.status updated_task)
     then
       do emit (task_status_changed_event
                  (models.story_id original_task)
                  (models.title original_task)
                  author_id
                  (models.status original_task)
                  (models.status updated_task)) ;;
       ret true
     else ret specific_change) ;;
  specific_change <-
    (if py_ne (models.priority original_task)
              (models.priority updated_task)
     then
       do emit (task_priority_changed_event
                  (models.story_id original_task)
                  (models.title original_task)
                  author_id
                  (models.priority original_task)
                  (models.priority updated_task)) ;;
       ret true
     else ret specific_change) ;;
  specific_change <-
    (if py_ne (models.assignee_id original_task)
              (models.assignee_id updated_task)
     then
       do emit (task_assignee_changed_event
                  (models.story_id original_task)
                  (models.title original_task)
                  author_id
                  (models.assignee_id original_task)
                  (models.assignee_id updated_task)) ;;
       ret true
     else ret specific_change) ;;
  if negb specific_change
  then emit (task_details_changed_event
               (models.story_id original_task)
               (models.title original_task)
               author_id)
  else ret tt.

Definition put (task_id : Z) (task : Task) : M Task :=
  original_task <- query (fun d => task_get d (Some task_id)) ;;
  updated_task <- command (Updated task_id (as_dict true task))
                          (fun d => task_update d task_id
                                                (as_dict true task)) ;;
  match updated_task with
  | Some updated_task =>
      do match original_task with
         | Some original_task =>
             _post_timeline_events original_task updated_task
         | None => getattr_None "status"
         end ;;
      ret (from_db_model updated_task)
  | None => raise not_found
  end.

Definition delete (task_id : Z) : M unit :=
  original_task <- query (fun d => task_get d (Some task_id)) ;;
  match original_task with
  | None => getattr_None "story_id"
  | Some original_task =>
      do emit (task_deleted_event
                 (models.story_id original_task)
                 (models.title original_task)
                 (current_user_id request)) ;;
      do command (Deleted task_id) (fun d => (task_delete d task_id, tt)) ;;
      respond (set_status_code 204)
  end.
End Controller.
End TasksController.

(** ** An in-memory store *)

Module MemStore.
(** A partial update of a column: [Unset] leaves it as it is. *)
Definition patch {A : Type} (a : attr A) (old : option A) : option A :=
  match a with
  | Unset => old
  | Null => None
  | Val v => Some v
  end.

Definition row_of (i : Z) (values : Task) : models.Task :=
  {| models.id := i;
     models.title := column (title values);
     models.status := column (status values);
     models.is_active := column (is_active values);
     models.creator_id := column (creator_id values);
     models.story_id := column (story_id values);
     models.project_id := column (project_id values);
     models.assignee_id := column (assignee_id values);
     models.priority := column (priority values) |}.

Definition patch_row (values : Task) (r : models.Task) : models.Task :=
  {| models.id := models.id r;
     models.title := patch (title values) (models.title r);
     models.status := patch (status values) (models.status r);
     models.is_active := patch (is_active values) (models.is_active r);
     models.creator_id := patch (creator_id values) (models.creator_id r);
     models.story_id := patch (story_id values) (models.story_id r);
     models.project_id := patch (project_id values) (models.project_id r);
     models.assignee_id :=
       patch (assignee_id values) (models.assignee_id r);
     models.priority := patch (priority values) (models.priority r) |}.

Definition has_id (i : Z) (r : models.Task) : bool :=
  bool_decide (models.id r = i).

(** A filter that is absent lets every row through. *)
Definition passes (wanted : option Z) (actual : option Z) : bool :=
  match wanted with
  | None => true
  | Some v => bool_decide (actual = Some v)
  end.

Definition selected (assignee_id story_id : option Z) (r : models.Task)
    : bool :=
  passes assignee_id (models.assignee_id r)
  && passes story_id (models.story_id r).

Fixpoint insert_by_id (r : models.Task) (rows : list models.Task)
    : list models.Task :=
  match rows with
  | [] => [r]
  | r' :: rest =>
      if Z.leb (models.id r) (models.id r')
      then r :: rows
      else r' :: insert_by_id r rest
  end.

Definition sort_by_id (rows : list models.Task) : list models.Task :=
  foldr insert_by_id [] rows.

Definition get (rows : list models.Task) (i : option Z)
    : option models.Task :=
  match i with
  | None => None
  | Some i => List.find (has_id i) rows
  end.

(** The page after the marker, in the direction of the listing. *)
Definition get_all (rows : list models.Task) (marker : option models.Task)
    (limit : Z) (assignee_id story_id : option Z)
    (sort_field sort_dir : string) : list models.Task :=
  let matching := List.filter (selected assignee_id story_id) rows in
  let ascending := sort_by_id matching in
  let ordered :=
    if String.eqb sort_dir "desc" then rev ascending else ascending in
  let beyond (r : models.Task) : bool :=
    match marker with
    | None => true
    | Some m =>
        if String.eqb sort_dir "desc"
        then Z.ltb (models.id r) (models.id m)
        else Z.ltb (models.id m) (models.id r)
    end in
  firstn (Z.to_nat limit) (List.filter beyond ordered).

Definition get_count (rows : list models.Task)
    (assignee_id story_id : option Z) : Z :=
  Z.of_nat (length (List.filter (selected assignee_id story_id) rows)).

Definition next_id (rows : list models.Task) : Z :=
  1 + foldr (fun r m => Z.max (models.id r) m) 0 rows.

Definition create (rows : list models.Task) (values : Task)
    : list models.Task * models.Task :=
  let r := row_of (next_id rows) values in
  (rows ++ [r], r).

Definition update (rows : list models.Task) (i : Z) (values : Task)
    : list models.Task * option models.Task :=
  let rows' :=
    map (fun r => if has_id i r then patch_row values r else r) rows in
  (rows', List.find (has_id i) rows').

Definition remove (rows : list models.Task) (i : Z) : list models.Task :=
  List.filter (fun r => negb (has_id i r)) rows.

Definition to_api (r : models.Task) : Task :=
  {| title := assign (models.title r);
     status := assign (models.status r);
     is_active := assign (models.is_active r);
     creator_id := assign (models.creator_id r);
     story_id := assign (models.story_id r);
     project_id := assign (models.project_id r);
     assignee_id := assign (models.assignee_id r);
     priority := assign (models.priority r) |}.

Definition fill {A : Type} (a : attr A) : attr A :=
  match a with
  | Unset => Null
  | _ => a
  end.

(** [as_dict(omit_unset)]: with [omit_unset] the unset attributes stay
    out; without it they appear as [None]. *)
Definition to_dict (omit_unset : bool) (t : Task) : Task :=
  if omit_unset then t
  else
    {| title := fill (title t);
       status := fill (status t);
       is_active := fill (is_active t);
       creator_id := fill (creator_id t);
       story_id := fill (story_id t);
       project_id := fill (project_id t);
       assignee_id := fill (assignee_id t);
       priority := fill (priority t) |}.

(** Modelled from the spec: the persistence API
    ([storyboard.db.api.tasks]) and the conversions of [APIBase], which
    the controller only calls.  This instance keeps the rows of the task table
    in a list: ids are assigned by the store, listings filter by story
    and assignee, order by id in the requested direction, start strictly
    after the marker and stop at the limit; the count ignores marker and
    limit; an update changes only the supplied fields; a delete removes
    the row.  It orders by [id] whatever the [sort_field]. *)
Definition collaborators : Collaborators :=
  {| DB := list models.Task;
     Dict := Task;
     task_get := get;
     task_get_all := get_all;
     task_get_count := get_count;
     task_create := create;
     task_update := update;
     task_delete := remove;
     from_db_model := to_api;
     as_dict := to_dict |}.

Definition world (rows : list models.Task) (effects : list Effect)
    (r : Response) : World :=
  @mkWorld collaborators rows effects r.
End MemStore.

(** ** Vocabulary of the specification *)

(** The tracked fields of two snapshots that differ, counted. *)
Definition differing (original_task updated_task : models.Task) : nat :=
  (if py_ne (models.status original_task) (models.status updated_task)
   then 1 else 0)
  + (if py_ne (models.priority original_task)
              (models.priority updated_task)
     then 1 else 0)
  + (if py_ne (models.assignee_id original_task)
              (models.assignee_id updated_task)
     then 1 else 0).

(** The specification's [diff_events(original, updated, author_id)]: one
    event per tracked field that differs, in the order status, priority,
    assignee; the generic event when none does. *)
Definition diff_events (author_id : option Z)
    (original updated : models.Task) : list TimelineEvent :=
  let story := models.story_id original in
  let task_title := models.title original in
  let tracked :=
    ((if py_ne (models.status original) (models.status updated)
      then [task_status_changed_event story task_title author_id
              (models.status original) (models.status updated)]
      else [])
     ++ (if py_ne (models.priority original) (models.priority updated)
         then [task_priority_changed_event story task_title author_id
                 (models.priority original) (models.priority updated)]
         else [])
     ++ (if py_ne (models.assignee_id original) (models.assignee_id updated)
         then [task_assignee_changed_event story task_title author_id
                 (models.assignee_id original) (models.assignee_id updated)]
         else [])) in
  match tracked with
  | [] => [task_details_changed_event story task_title author_id]
  | _ :: _ => tracked
  end.

(** The generic event. *)
Definition is_details_changed (e : TimelineEvent) : bool :=
  match e with
  | task_details_changed_event _ _ _ => true
  | _ => false
  end.

(** Two request bodies that agree on everything but [creator_id]. *)
Definition same_but_creator_id (t1 t2 : Task) : Prop :=
  title t1 = title t2 /\ status t1 = status t2 /\
  is_active t1 = is_active t2 /\ story_id t1 = story_id t2 /\
  project_id t1 = project_id t2 /\ assignee_id t1 = assignee_id t2 /\
  priority t1 = priority t2.

(** A store that records the [creator_id] it is handed on creation. *)
Definition stores_creator_id `{C : Collaborators} : Prop :=
  forall (d : DB) (t : Task),
    models.creator_id (snd (task_create d (as_dict false t))) =
    column (creator_id t).

(** The response [get_all] leaves: the three headers, written in the
    order of the source. *)
Definition listing_response (limit task_count : Z)
    (marker_task : option models.Task) (r : Response) : Response :=
  let r := set_header "X-Limit" (str limit) r in
  let r := set_header "X-Total" (str task_count) r in
  match marker_task with
  | Some t => set_header "X-Marker" (str (models.id t)) r
  | None => r
  end.

(** ** Sample data *)

Module Sample.
Definition row (i : Z) (story assignee : option Z) (name state : string)
    : models.Task :=
  {| models.id := i;
     models.title := Some name;
     models.status := Some state;
     models.is_active := Some true;
     models.creator_id := Some 1;
     models.story_id := story;
     models.project_id := Some 1;
     models.assignee_id := assignee;
     models.priority := Some "low" |}.

(** Four tasks: two in story 3, one in story 4, and task 7 in story 3. *)
Definition rows : list models.Task :=
  [ row 1 (Some 3) None "parse" "todo";
    row 2 (Some 4) (Some 5) "lint" "inprogress";
    row 5 (Some 3) (Some 5) "ship" "review";
    row 7 (Some 3) None "retire" "merged" ].

Definition fresh : Response := {| headers := ∅; status_code := 200 |}.

Definition world : World := MemStore.world rows [] fresh.

(** The page sizes StoryBoard ships with. *)
Definition stock : Config :=
  {| page_size_default := 20; page_size_maximum := 500 |}.

(** A default above the maximum. *)
Definition generous : Config :=
  {| page_size_default := 1000; page_size_maximum := 500 |}.

(** A maximum below one. *)
Definition closed : Config :=
  {| page_size_default := 20; page_size_maximum := 0 |}.

Definition user42 : Request := {| current_user_id := Some 42 |}.

(** A request body that claims to be created by user 999. *)
Definition body : Task :=
  {| title := Val "triage";
     status := Val "todo";
     is_active := Unset;
     creator_id := Val 999;
     story_id := Val 3;
     project_id := Val 1;
     assignee_id := Unset;
     priority := Val "high" |}.
End Sample.

(** ** The exception hierarchy *)

(** [storyboard/common/exception.py] in full: every class, the attributes
    its constructor leaves on the instance, and what [str] gives.  The
    translation marker [_] is the identity. *)
Module errors.
Inductive class : Type :=
| StoryboardException_class
| NotFound_class
| NotEmpty_class
| DBException_class
| DBDuplicateEntry_class
| DBConnectionError_class
| ColumnError_class
| DBDeadLock_class
| DBInvalidUnicodeParameter_class
| DBMigrationError_class
| DBReferenceError_class
| DBInvalidSortKey_class.

(** The base class, [None] for wsme's [ClientSideError]. *)
Definition base (c : class) : option class :=
  match c with
  | StoryboardException_class => None
  | NotFound_class | NotEmpty_class | DBException_class =>
      Some StoryboardException_class
  | DBDuplicateEntry_class | DBConnectionError_class | ColumnError_class
  | DBDeadLock_class | DBInvalidUnicodeParameter_class
  | DBMigrationError_class | DBReferenceError_class
  | DBInvalidSortKey_class => Some DBException_class
  end.

(** The class attribute [message]; every class sets its own. *)
Definition class_message (c : class) : string :=
  match c with
  | StoryboardException_class => "An unknown exception occurred"
  | NotFound_class => "Object not found"
  | NotEmpty_class => "Database object must be empty"
  | DBException_class => "Database Exception"
  | DBDuplicateEntry_class => "Database object already exists."
  | DBConnectionError_class => "Connection to database failed."
  | ColumnError_class => "Column is invalid or not found"
  | DBDeadLock_class => "Database in dead lock"
  | DBInvalidUnicodeParameter_class =>
      "Unicode parameter is passed to " +:+
      "a database without encoding directive"
  | DBMigrationError_class =>
      "migrations could not be completed successfully"
  | DBReferenceError_class => "Foreign key error."
  | DBInvalidSortKey_class => "Invalid sort field"
  end.

(** An exception object: its class, the attributes [msg] and [code]
    that [ClientSideError.__init__] assigns ([Unset] while it has not
    run), and the [message] assigned on the instance, if any. *)
Record instance : Type := mk {
  cls : class;
  msg : attr string;
  code : attr Z;
  own_message : option string
}.

(** The object before any [__init__] has run. *)
Definition new (c : class) : instance :=
  {| cls := c; msg := Unset; code := Unset; own_message := None |}.

(** [self.message]: the instance's, else the class's. *)
Definition message (self : instance) : string :=
  match own_message self with
  | Some m => m
  | None => class_message (cls self)
  end.

(** [StoryboardException.__str__] *)
Definition __str__ (self : instance) : string := message self.

(** Truth of a value that is [None] or text: the empty text is false. *)
Definition truthy (v : option string) : bool :=
  match v with
  | Some s => negb (String.eqb s "")
  | None => false
  end.

(** [not status_code]: true of [None] and of 0. *)
Definition not_status (status_code : option Z) : bool :=
  match status_code with
  | Some c => Z.eqb c 0
  | None => true
  end.

(** The text of a value, as [%s] formats it; a text is its own. *)
Definition text (v : option string) : string :=
  match v with
  | Some s => s
  | None => "None"
  end.

(** ["'%s'" % v] *)
Definition quoted (v : option string) : string := "'" +:+ text v +:+ "'".

(** [" ".join(parts)] *)
Definition join (parts : list string) : string := String.concat " " parts.

(** wsme's [ClientSideError.__init__(self, msg, status_code)], with both
    arguments supplied. *)
Definition ClientSideError_init (msg' : option string)
    (status_code : option Z) (self : instance) : instance :=
  {| cls := cls self;
     msg := assign msg';
     code := assign status_code;
     own_message := own_message self |}.

(** [self.msg = s] *)
Definition set_msg (s : string) (self : instance) : instance :=
  {| cls := cls self;
     msg := Val s;
     code := code self;
     own_message := own_message self |}.

Definition StoryboardException_init (message' : option string)
    (status_code : option Z) (self : instance) : instance :=
  ClientSideError_init message' status_code self.

Definition NotFound_init (message' : option string) (self : instance)
    : instance :=
  StoryboardException_init message' (Some 404) self.

(** [NotEmpty.__init__] assigns [self.message] when a message is given
    and calls no base constructor. *)
Definition NotEmpty_init (message' : option string) (self : instance)
    : instance :=
  if truthy message'
  then {| cls := cls self;
          msg := msg self;
          code := code self;
          own_message := Some (text message') |}
  else self.

Definition DBException_init (message' : option string)
    (status_code : option Z) (self : instance) : instance :=
  let status_code :=
    if not_status status_code then Some 400 else status_code in
  StoryboardException_init message' status_code self.

Definition DBDuplicateEntry_init (message' object_name value : option string)
    (status_code : option Z) (self : instance) : instance :=
  let self := DBException_init message' status_code self in
  let db_message :=
    if truthy object_name || truthy value
    then
      let db_message_list := ["Database object"] in
      let db_message_list :=
        if truthy object_name
        then db_message_list ++ [quoted object_name]
        else db_message_list in
      let db_message_list :=
        if truthy value
        then db_message_list ++ ["with field value " +:+ quoted value]
        else db_message_list ++ ["with some of unique fields"] in
      let db_message_list := db_message_list ++ ["already exists."] in
      Some (join db_message_list)
    else None in
  if truthy db_message
  then
    let message_list := [] in
    let message_list :=
      if truthy message'
      then message_list ++ [text message']
      else message_list in
    let message_list := message_list ++ [text db_message] in
    set_msg (join message_list) self
  else self.

Definition DBReferenceError_init
    (message' object_name value key : option string)
    (status_code : option Z) (self : instance) : instance :=
  let self := DBException_init message' status_code self in
  let db_message :=
    if truthy object_name || truthy value || truthy key
    then
      let db_message_list := [] in
      let db_message_list :=
        if truthy object_name
        then db_message_list ++ ["Error in object"]
                             ++ ["'" +:+ text object_name +:+ "'."]
        else db_message_list in
      let db_message_list :=
        if truthy value || truthy key
        then
          let db_message_list := db_message_list ++ ["Field"] in
          let db_message_list :=
            if truthy key
            then db_message_list ++ [quoted key]
            else db_message_list in
          let db_message_list :=
            if truthy value
            then db_message_list ++ ["value"] ++ [quoted value]
            else db_message_list in
          db_message_list ++ ["is invalid."]
        else db_message_list in
      Some (join db_message_list)
    else None in
  if truthy db_message
  then
    let message_list := [] in
    let message_list :=
      if truthy message'
      then message_list ++ [text message']
      else message_list ++ [message self] in
    let message_list := message_list ++ [text db_message] in
    set_msg (join message_list) self
  else self.

(** The classes, called. *)
Definition StoryboardException (message' : option string)
    (status_code : option Z) : instance :=
  StoryboardException_init message' status_code
                           (new StoryboardException_class).

Definition NotFound (message' : option string) : instance :=
  NotFound_init message' (new NotFound_class).

Definition NotEmpty (message' : option string) : instance :=
  NotEmpty_init message' (new NotEmpty_class).

Definition DBException (message' : option string) (status_code : option Z)
    : instance :=
  DBException_init message' status_code (new DBException_class).

Definition DBDuplicateEntry (message' object_name value : option string)
    (status_code : option Z) : instance :=
  DBDuplicateEntry_init message' object_name value status_code
                        (new DBDuplicateEntry_class).

Definition DBReferenceError (message' object_name value key : option string)
    (status_code : option Z) : instance :=
  DBReferenceError_init message' object_name value key status_code
                        (new DBReferenceError_class).

(** The classes that only set [message] are built by the constructor
    they inherit, [DBException.__init__]. *)
Definition DBConnectionError (message' : option string)
    (status_code : option Z) : instance :=
  DBException_init message' status_code (new DBConnectionError_class).

Definition ColumnError (message' : option string) (status_code : option Z)
    : instance :=
  DBException_init message' status_code (new ColumnError_class).

Definition DBDeadLock (message' : option string) (status_code : option Z)
    : instance :=
  DBException_init message' status_code (new DBDeadLock_class).

Definition DBInvalidUnicodeParameter (message' : option string)
    (status_code : option Z) : instance :=
  DBException_init message' status_code
                   (new DBInvalidUnicodeParameter_class).

Definition DBMigrationError (message' : option string)
    (status_code : option Z) : instance :=
  DBException_init message' status_code (new DBMigrationError_class).

Definition DBInvalidSortKey (message' : option string)
    (status_code : option Z) : instance :=
  DBException_init message' status_code (new DBInvalidSortKey_class).

(** [s] begins with [p]. *)
Definition starts_with (p s : string) : Prop := exists t, s = p +:+ t.

(** [s] ends with [q]. *)
Definition ends_with (q s : string) : Prop := exists t, s = t +:+ q.
End errors.

(** ** Vocabulary of the further properties *)

(** A store in which a deleted id no longer resolves. *)
Definition forgets_deleted `{C : Collaborators} : Prop :=
  forall (d : DB) (i : Z), task_get (task_delete d i) (Some i) = None.

(** The event is one of an update and carries this story, title and
    author. *)
Definition about (story : option Z) (task_title : option string)
    (author : option Z) (e : TimelineEvent) : Prop :=
  match e with
  | task_status_changed_event s t a _ _
  | task_priority_changed_event s t a _ _
  | task_assignee_changed_event s t a _ _
  | task_details_changed_event s t a =>
      s = story /\ t = task_title /\ a = author
  | task_created_event _ _ _ | task_deleted_event _ _ _ => False
  end.

(** ** Sample requests *)

Module SampleUpdate.
(** A body that sets the status and leaves the rest unset. *)
Definition review : Task :=
  {| title := Unset;
     status := Val "review";
     is_active := Unset;
     creator_id := Unset;
     story_id := Unset;
     project_id := Unset;
     assignee_id := Unset;
     priority := Unset |}.

(** Task 1 before and after [review]. *)
Definition before : models.Task := Sample.row 1 (Some 3) None "parse" "todo".

Definition reviewed : models.Task :=
  Sample.row 1 (Some 3) None "parse" "review".

(** Task 1 with status, priority and assignee changed. *)
Definition reworked : models.Task :=
  {| models.id := 1;
     models.title := Some "parse";
     models.status := Some "inprogress";
     models.is_active := Some true;
     models.creator_id := Some 1;
     models.story_id := Some 3;
     models.project_id := Some 1;
     models.assignee_id := Some 5;
     models.priority := Some "high" |}.
End SampleUpdate.

(** ** A task without a story *)

Module SampleOrphan.
(** A request body that names no story. *)
Definition storyless : Task :=
  {| title := Val "orphan";
     status := Val "todo";
     is_active := Unset;
     creator_id := Unset;
     story_id := Unset;
     project_id := Val 1;
     assignee_id := Unset;
     priority := Val "low" |}.

(** The sample world after user 42 has posted [storyless]: the store
    holds it as task 8, with no [story_id]. *)
Definition world : World :=
  snd (TasksController.post (C := MemStore.collaborators) Sample.user42
                            storyless Sample.world).
End SampleOrphan.

(** ** Proof steps *)

Ltac run_controller :=
  unfold TasksController.get_one, TasksController.get_all,
    TasksController.post, TasksController.put, TasksController.delete,
    TasksController._post_timeline_events, getattr_None,
    bind, query, command, emit, respond, ret, raise;
  cbn [fst snd db trace response].

(** ** Python values, by example *)

Example str_of_status : str 204 = "204".
Proof. reflexivity. Qed.

Example str_of_zero : str 0 = "0".
Proof. reflexivity. Qed.

Example str_of_negative : str (-15) = "-15".
Proof. reflexivity. Qed.

Example none_differs_from_int : py_ne (Some 3) (None : option Z) = true.
Proof. reflexivity. Qed.

Example not_found_carries_404 :
  NotFound None = ClientSideError NotFound_class None (Some 404)
  /\ StoryboardException None None =
     ClientSideError StoryboardException_class None None.
Proof. now split. Qed.

(** ** Python comparisons *)

Lemma py_ne_true {A : Type} `{EqDecision A} (x y : A) :
  x <> y -> py_ne x y = true.
Proof.
  intros Hne. unfold py_ne. now rewrite bool_decide_eq_false_2.
Qed.

Lemma py_ne_false {A : Type} `{EqDecision A} (x y : A) :
  x = y -> py_ne x y = false.
Proof.
  intros Heq. unfold py_ne. now rewrite bool_decide_eq_true_2.
Qed.

Lemma py_ne_differ {A : Type} `{EqDecision A} (x y : A) :
  py_ne x y = false -> x = y.
Proof.
  unfold py_ne. intros Hb. apply negb_false_iff in Hb.
  now apply bool_decide_eq_true_1 in Hb.
Qed.

Lemma column_assign {A : Type} (v : option A) : column (assign v) = v.
Proof. now destruct v. Qed.

(** ** Listing *)

Section Listing.
Context `{C : Collaborators}.
Variable CONF : Config.

(** [get_all] never raises: it returns the page the store gives for the
    effective limit and marker, and touches only the response. *)
Lemma get_all_run (story_id assignee_id marker limit : option Z)
    (sort_field sort_dir : string) (w : World) :
  TasksController.get_all CONF story_id assignee_id marker limit
                          sort_field sort_dir w =
  let limit' := TasksController.effective_limit CONF limit in
  let marker_task :=
    TasksController.effective_marker (task_get (db w) marker) story_id in
  (Return (map from_db_model
             (task_get_all (db w) marker_task limit' assignee_id story_id
                           sort_field sort_dir)),
   {| db := db w;
      trace := trace w;
      response :=
        listing_response limit' (task_get_count (db w) assignee_id story_id)
                         marker_task (response w) |}).
Proof.
  run_controller. unfold listing_response.
  now destruct (TasksController.effective_marker _ _).
Qed.

Lemma listing_response_total (limit task_count : Z)
    (marker_task : option models.Task) (r : Response) :
  headers (listing_response limit task_count marker_task r) !! "X-Total" =
  Some (str task_count).
Proof.
  unfold listing_response, set_header.
  destruct marker_task; cbn [headers].
  - rewrite lookup_insert_ne by discriminate. apply lookup_insert_eq.
  - apply lookup_insert_eq.
Qed.

Lemma listing_response_limit (limit task_count : Z)
    (marker_task : option models.Task) (r : Response) :
  headers (listing_response limit task_count marker_task r) !! "X-Limit" =
  Some (str limit).
Proof.
  unfold listing_response, set_header.
  destruct marker_task; cbn [headers].
  - do 2 (rewrite lookup_insert_ne by discriminate). apply lookup_insert_eq.
  - rewrite lookup_insert_ne by discriminate. apply lookup_insert_eq.
Qed.

Lemma listing_response_no_marker (limit task_count : Z) (r : Response) :
  headers (listing_response limit task_count None r) !! "X-Marker" =
  headers r !! "X-Marker".
Proof.
  unfold listing_response, set_header; cbn [headers].
  now do 2 (rewrite lookup_insert_ne by discriminate).
Qed.

Lemma effective_marker_foreign (t : models.Task) (story_id : option Z) :
  models.story_id t <> story_id ->
  TasksController.effective_marker (Some t) story_id = None.
Proof.
  intros Hne. unfold TasksController.effective_marker.
  now rewrite py_ne_true.
Qed.

(** C1. A marker id that resolves to a task of another story than the
    [story_id] filter is dropped without an error: the call returns, and
    its page, its headers and the world it leaves are those of the same
    call without a marker.  (The call without a marker still asks the
    store for the task with id [None]; the store is taken to have none.) *)
Theorem get_all_foreign_marker_discarded
    (story_id assignee_id limit : option Z) (marker : Z)
    (sort_field sort_dir : string) (w : World) (t : models.Task) :
  task_get (db w) None = None ->
  task_get (db w) (Some marker) = Some t ->
  models.story_id t <> story_id ->
  TasksController.get_all CONF story_id assignee_id (Some marker) limit
                          sort_field sort_dir w =
  TasksController.get_all CONF story_id assignee_id None limit
                          sort_field sort_dir w
  /\ (exists tasks w',
        TasksController.get_all CONF story_id assignee_id (Some marker)
                                limit sort_field sort_dir w =
        (Return tasks, w')
        /\ headers (response w') !! "X-Marker" =
           headers (response w) !! "X-Marker").
Proof.
  intros Hnone Hget Hne. rewrite !get_all_run. cbn zeta.
  rewrite Hnone, Hget, (effective_marker_foreign _ _ Hne).
  cbn [TasksController.effective_marker].
  split; [reflexivity|].
  eexists _, _. split; [reflexivity|].
  cbn [response]. apply listing_response_no_marker.
Qed.

(** C2, as the code has it. The limit of a call is
    [min(maximum, max(1, L))], where [L] is the supplied limit or, when
    none is supplied, the configured default: an absent limit gives the
    default clamped the same way (the default itself when it lies
    between 1 and the maximum); a limit above the maximum gives the
    maximum; a limit below 1 gives 1 when the maximum is at least 1 and
    the maximum otherwise; a limit in range is kept.  Whatever the
    limit, [get_all] returns and reports the effective limit in
    [X-Limit]. *)
Theorem effective_limit_clamped (limit : option Z) :
  TasksController.effective_limit CONF None =
    Z.min (page_size_maximum CONF) (Z.max 1 (page_size_default CONF))
  /\ (1 <= page_size_default CONF <= page_size_maximum CONF ->
      TasksController.effective_limit CONF None = page_size_default CONF)
  /\ (forall L : Z,
        (page_size_maximum CONF < L ->
         TasksController.effective_limit CONF (Some L) =
         page_size_maximum CONF)
        /\ (L < 1 -> 1 <= page_size_maximum CONF ->
            TasksController.effective_limit CONF (Some L) = 1)
        /\ (L < 1 -> page_size_maximum CONF < 1 ->
            TasksController.effective_limit CONF (Some L) =
            page_size_maximum CONF)
        /\ (1 <= L <= page_size_maximum CONF ->
            TasksController.effective_limit CONF (Some L) = L))
  /\ (forall (story_id assignee_id marker : option Z)
             (sort_field sort_dir : string) (w : World),
        exists tasks w',
          TasksController.get_all CONF story_id assignee_id marker limit
                                  sort_field sort_dir w =
          (Return tasks, w')
          /\ headers (response w') !! "X-Limit" =
             Some (str (TasksController.effective_limit CONF limit))).
Proof.
  unfold TasksController.effective_limit.
  split; [reflexivity|]. split; [lia|]. split; [intros L; lia|].
  intros story_id assignee_id marker sort_field sort_dir w.
  rewrite get_all_run. cbn zeta. eexists _, _. split; [reflexivity|].
  cbn [response]. apply listing_response_limit.
Qed.

(** C3. For fixed [story_id] and [assignee_id] filters the [X-Total]
    header is the store's count of the rows matching the two filters:
    every call returns it, whatever the limit, the marker and the
    ordering, so any two calls that differ only in those agree on it. *)
Theorem get_all_total_ignores_page (story_id assignee_id : option Z)
    (w : World) :
  (forall (marker limit : option Z) (sort_field sort_dir : string),
     exists tasks w',
       TasksController.get_all CONF story_id assignee_id marker limit
                               sort_field sort_dir w =
       (Return tasks, w')
       /\ headers (response w') !! "X-Total" =
          Some (str (task_get_count (db w) assignee_id story_id)))
  /\ (forall (marker1 limit1 marker2 limit2 : option Z)
             (sort_field1 sort_dir1 sort_field2 sort_dir2 : string),
        headers (response (snd (
          TasksController.get_all CONF story_id assignee_id marker1 limit1
                                  sort_field1 sort_dir1 w))) !! "X-Total" =
        headers (response (snd (
          TasksController.get_all CONF story_id assignee_id marker2 limit2
                                  sort_field2 sort_dir2 w))) !! "X-Total").
Proof.
  split.
  - intros marker limit sort_field sort_dir. rewrite get_all_run.
    cbn zeta. eexists _, _. split; [reflexivity|].
    cbn [response]. apply listing_response_total.
  - intros. rewrite !get_all_run. cbn zeta. cbn [snd response].
    now rewrite !listing_response_total.
Qed.

End Listing.

(** ** Retrieval *)

Section Retrieval.
Context `{C : Collaborators}.

(** C8, as the code has it.  [get_one] returns the task the store
    resolves the id to, and otherwise raises, leaving the world as it
    was, wsme's [ClientSideError] itself with status 404: an error of
    the base class, not of the [NotFound] class of [exception.py],
    though it carries the status every [NotFound] carries, 404 whatever
    the message. *)
Theorem get_one_task_or_client_error_404 (task_id : Z) (w : World) :
  (forall t : models.Task,
     task_get (db w) (Some task_id) = Some t ->
     TasksController.get_one task_id w = (Return (from_db_model t), w))
  /\ (task_get (db w) (Some task_id) = None ->
      TasksController.get_one task_id w =
      (Raise (ClientSideError ClientSideError_class
                              (Some task_not_found_msg) (Some 404)),
       w)
      /\ forall message : option string,
           fst (TasksController.get_one task_id w) <>
           Raise (NotFound message)
           /\ (forall e : exception,
                 fst (TasksController.get_one task_id w) = Raise e ->
                 status_of e = status_of (NotFound message)))
  /\ (forall message : option string,
        status_of (NotFound message) = Some 404).
Proof.
  split; [|split]; [| |reflexivity].
  - intros t Hget. run_controller. now rewrite Hget.
  - intros Hget. run_controller. rewrite Hget. cbn [fst].
    split; [reflexivity|]. intros message. split.
    + discriminate.
    + now intros e [= <-].
Qed.
End Retrieval.

(** ** Timeline events of an update *)

Section Changes.
Context `{C : Collaborators}.
Variable request : Request.

(** The mapper does what [diff_events] says, and nothing else: it
    returns, and appends those events to the trace in that order. *)
Lemma post_timeline_events_run (original_task updated_task : models.Task)
    (w : World) :
  TasksController._post_timeline_events request original_task updated_task
                                        w =
  (Return tt,
   {| db := db w;
      trace := trace w ++
               map Emitted (diff_events (current_user_id request)
                                        original_task updated_task);
      response := response w |}).
Proof.
  run_controller. unfold diff_events.
  destruct (py_ne (models.status original_task) _),
           (py_ne (models.priority original_task) _),
           (py_ne (models.assignee_id original_task) _);
    cbn; rewrite <- ?app_assoc; reflexivity.
Qed.

(** C4. When status, priority and assignee of the two snapshots agree,
    whatever else differs, the mapper emits one event and one only: the
    generic "details changed". *)
Theorem details_changed_when_no_tracked_field_differs
    (original_task updated_task : models.Task) (w : World) :
  models.status original_task = models.status updated_task ->
  models.priority original_task = models.priority updated_task ->
  models.assignee_id original_task = models.assignee_id updated_task ->
  TasksController._post_timeline_events request original_task updated_task
                                        w =
  (Return tt,
   {| db := db w;
      trace := trace w ++
               [Emitted (task_details_changed_event
                           (models.story_id original_task)
                           (models.title original_task)
                           (current_user_id request))];
      response := response w |}).
Proof.
  intros Hstatus Hpriority Hassignee.
  rewrite post_timeline_events_run. unfold diff_events.
  now rewrite !py_ne_false.
Qed.

(** C5. When status and assignee differ and priority does not, the
    mapper emits two events and two only, the status change and then the
    assignee change, each with its own old and new value, and no generic
    event.  In general the events are as many as the tracked fields that
    differ, each field that differs has its own event, and the generic
    event is not among them. *)
Theorem status_and_assignee_changes_emit_two_events
    (original_task updated_task : models.Task) (w : World) :
  models.status original_task <> models.status updated_task ->
  models.priority original_task = models.priority updated_task ->
  models.assignee_id original_task <> models.assignee_id updated_task ->
  TasksController._post_timeline_events request original_task updated_task
                                        w =
  (Return tt,
   {| db := db w;
      trace := trace w ++
               [Emitted (task_status_changed_event
                           (models.story_id original_task)
                           (models.title original_task)
                           (current_user_id request)
                           (models.status original_task)
                           (models.status updated_task));
                Emitted (task_assignee_changed_event
                           (models.story_id original_task)
                           (models.title original_task)
                           (current_user_id request)
                           (models.assignee_id original_task)
                           (models.assignee_id updated_task))];
      response := response w |})
  /\ (forall (o u : models.Task) (w0 : World),
        (0 < differing o u)%nat ->
        exists events : list TimelineEvent,
          TasksController._post_timeline_events request o u w0 =
          (Return tt,
           {| db := db w0;
              trace := trace w0 ++ map Emitted events;
              response := response w0 |})
          /\ length events = differing o u
          /\ forallb (fun e => negb (is_details_changed e)) events = true
          /\ (models.status o <> models.status u ->
              In (task_status_changed_event
                    (models.story_id o) (models.title o)
                    (current_user_id request)
                    (models.status o) (models.status u)) events)
          /\ (models.priority o <> models.priority u ->
              In (task_priority_changed_event
                    (models.story_id o) (models.title o)
                    (current_user_id request)
                    (models.priority o) (models.priority u)) events)
          /\ (models.assignee_id o <> models.assignee_id u ->
              In (task_assignee_changed_event
                    (models.story_id o) (models.title o)
                    (current_user_id request)
                    (models.assignee_id o) (models.assignee_id u))
                 events)).
Proof.
  intros Hstatus Hpriority Hassignee. split.
  - rewrite post_timeline_events_run. unfold diff_events.
    rewrite (py_ne_true _ _ Hstatus), (py_ne_false _ _ Hpriority),
            (py_ne_true _ _ Hassignee).
    reflexivity.
  - intros o u w0 Hsome.
    exists (diff_events (current_user_id request) o u).
    split; [apply post_timeline_events_run|].
    unfold diff_events, differing in *.
    destruct (py_ne (models.status o) _) eqn:Hs,
             (py_ne (models.priority o) _) eqn:Hp,
             (py_ne (models.assignee_id o) _) eqn:Ha;
      cbn in Hsome |- *; try lia;
      repeat split; try reflexivity; intros Hne;
      try (apply py_ne_differ in Hs; contradiction);
      try (apply py_ne_differ in Hp; contradiction);
      try (apply py_ne_differ in Ha; contradiction);
      auto.
Qed.
End Changes.

(** ** Creation *)

Section Creation.
Context `{C : Collaborators}.
Variable request : Request.

Lemma set_creator_id_same (t1 t2 : Task) (v : option Z) :
  same_but_creator_id t1 t2 -> set_creator_id t1 v = set_creator_id t2 v.
Proof.
  intros (Ht & Hs & Ha & Hst & Hp & Has & Hpr).
  unfold set_creator_id. now rewrite Ht, Hs, Ha, Hst, Hp, Has, Hpr.
Qed.

(** C6. [post] hands the store the request body with its [creator_id]
    overwritten by the acting user's id, so on a store that records the
    [creator_id] it is handed the created task has the acting user's id
    as its [creator_id]; and two requests that differ only in the
    [creator_id] the client supplied are one and the same run. *)
Theorem post_creator_id_is_acting_user (task : Task) (w : World) :
  stores_creator_id ->
  (exists (created : models.Task) (w' : World),
     TasksController.post request task w =
     (Return (from_db_model created), w')
     /\ task_create (db w)
          (as_dict false (set_creator_id task (current_user_id request))) =
        (db w', created)
     /\ trace w' =
        trace w ++
        [Created (as_dict false
                    (set_creator_id task (current_user_id request)));
         Emitted (task_created_event (story_id task)
                                     (models.title created)
                                     (current_user_id request))]
     /\ models.creator_id created = current_user_id request)
  /\ (forall task2 : Task,
        same_but_creator_id task task2 ->
        TasksController.post request task2 w =
        TasksController.post request task w).
Proof.
  intros Hstore. split.
  - run_controller.
    pose proof (Hstore (db w)
                  (set_creator_id task (current_user_id request))) as Hc.
    destruct (task_create (db w) _) as [d created] eqn:Hcreate.
    cbn [snd] in Hc. exists created. eexists. cbn [trace].
    split; [reflexivity|]. split; [reflexivity|].
    split; [now rewrite <- app_assoc|].
    rewrite Hc. cbn [set_creator_id creator_id]. apply column_assign.
  - intros task2 Hsame. unfold TasksController.post.
    now rewrite (set_creator_id_same _ _ _ Hsame).
Qed.
End Creation.

(** ** Deletion *)

Section Deletion.
Context `{C : Collaborators}.
Variable request : Request.

(** C7. Deleting a task the store resolves returns with status 204 after
    two effects, in this order: one "task deleted" event carrying the
    [story_id] and the title the task had, then the removal of the row
    from the store. *)
Theorem delete_emits_before_removing (task_id : Z) (w : World)
    (t : models.Task) :
  task_get (db w) (Some task_id) = Some t ->
  TasksController.delete request task_id w =
  (Return tt,
   {| db := task_delete (db w) task_id;
      trace := trace w ++
               [Emitted (task_deleted_event (models.story_id t)
                                            (models.title t)
                                            (current_user_id request));
                Deleted task_id];
      response := set_status_code 204 (response w) |})
  /\ status_code (response (snd (
       TasksController.delete request task_id w))) = 204.
Proof.
  intros Hget. run_controller. rewrite Hget. cbn.
  now rewrite <- app_assoc.
Qed.

(** C10. Deleting an id the store does not resolve takes no 404 branch:
    reading [story_id] off the missing snapshot raises the interpreter's
    [AttributeError], which carries no HTTP status, before any event is
    emitted, any row removed or the response touched, where [get_one]
    answers the same id with a 404.  [delete] returns exactly when the
    task exists. *)
Theorem delete_missing_task_unguarded (task_id : Z) (w : World) :
  task_get (db w) (Some task_id) = None ->
  TasksController.delete request task_id w =
  (Raise (AttributeError "'NoneType' object has no attribute 'story_id'"),
   w)
  /\ status_of (AttributeError
                  "'NoneType' object has no attribute 'story_id'") = None
  /\ fst (TasksController.get_one task_id w) =
     Raise TasksController.not_found
  /\ (forall w0 : World,
        (exists w', TasksController.delete request task_id w0 =
                    (Return tt, w'))
        <-> is_Some (task_get (db w0) (Some task_id))).
Proof.
  intros Hget. split; [|split; [reflexivity|split]].
  - run_controller. now rewrite Hget.
  - run_controller. now rewrite Hget.
  - intros w0. run_controller.
    destruct (task_get (db w0) (Some task_id)) as [t|]; cbn; split.
    + now eexists.
    + intros _. now eexists.
    + intros [w' Hw']. discriminate.
    + intros [x Hx]. discriminate.
Qed.
End Deletion.

(** ** The properties at work on the in-memory store *)

(** In story 3, marker 2 names a task of story 4: the listing is the one
    without a marker. *)
Lemma get_all_foreign_marker_discarded_witness :
  TasksController.get_all (C := MemStore.collaborators) Sample.stock
    (Some 3) None (Some 2) None "id" "asc" Sample.world =
  TasksController.get_all (C := MemStore.collaborators) Sample.stock
    (Some 3) None None None "id" "asc" Sample.world.
Proof.
  apply (get_all_foreign_marker_discarded (C := MemStore.collaborators)
           Sample.stock (Some 3) None None 2 "id" "asc" Sample.world
           (Sample.row 2 (Some 4) (Some 5) "lint" "inprogress")).
  - reflexivity.
  - reflexivity.
  - discriminate.
Defined.

(** C2 does not hold as stated.  With a default of 1000 and a maximum of
    500 a call without a limit runs with limit 500, not with the default,
    and says so in [X-Limit]; with a maximum of 0 the limit 0 is not
    raised to 1. *)
Lemma effective_limit_not_the_default :
  TasksController.effective_limit Sample.generous None = 500
  /\ TasksController.effective_limit Sample.generous None <>
     page_size_default Sample.generous
  /\ headers (response (snd (
       TasksController.get_all (C := MemStore.collaborators) Sample.generous
         None None None None "id" "asc" Sample.world))) !! "X-Limit" =
     Some "500"
  /\ TasksController.effective_limit Sample.closed (Some 0) = 0
  /\ TasksController.effective_limit Sample.closed (Some 0) <> 1.
Proof.
  repeat split; try reflexivity; vm_compute; discriminate.
Qed.

(** Only the title changes. *)
Lemma details_changed_when_no_tracked_field_differs_witness :
  TasksController._post_timeline_events (C := MemStore.collaborators)
    Sample.user42
    (Sample.row 1 (Some 3) None "parse" "todo")
    (Sample.row 1 (Some 3) None "parse input" "todo")
    Sample.world =
  (Return tt,
   MemStore.world Sample.rows
     [Emitted (task_details_changed_event (Some 3) (Some "parse")
                                          (Some 42))]
     Sample.fresh).
Proof.
  apply (details_changed_when_no_tracked_field_differs
           (C := MemStore.collaborators) Sample.user42
           (Sample.row 1 (Some 3) None "parse" "todo")
           (Sample.row 1 (Some 3) None "parse input" "todo")
           Sample.world); reflexivity.
Defined.

(** Task 1 goes from todo to review and is assigned to user 5. *)
Lemma status_and_assignee_changes_emit_two_events_witness :
  TasksController._post_timeline_events (C := MemStore.collaborators)
    Sample.user42
    (Sample.row 1 (Some 3) None "parse" "todo")
    (Sample.row 1 (Some 3) (Some 5) "parse" "review")
    Sample.world =
  (Return tt,
   MemStore.world Sample.rows
     [Emitted (task_status_changed_event (Some 3) (Some "parse") (Some 42)
                                         (Some "todo") (Some "review"));
      Emitted (task_assignee_changed_event (Some 3) (Some "parse") (Some 42)
                                           None (Some 5))]
     Sample.fresh).
Proof.
  apply (status_and_assignee_changes_emit_two_events
           (C := MemStore.collaborators) Sample.user42
           (Sample.row 1 (Some 3) None "parse" "todo")
           (Sample.row 1 (Some 3) (Some 5) "parse" "review")
           Sample.world).
  - discriminate.
  - reflexivity.
  - discriminate.
Defined.

(** User 42 posts a body that names user 999 as creator: the row the
    store keeps, task 8, has creator 42. *)
Lemma post_creator_id_is_acting_user_witness :
  exists (created : models.Task) (w' : World),
    TasksController.post (C := MemStore.collaborators) Sample.user42
                         Sample.body Sample.world =
    (Return (MemStore.to_api created), w')
    /\ models.creator_id created = Some 42
    /\ models.creator_id <$> MemStore.get (db w') (Some 8) = Some (Some 42).
Proof.
  destruct (post_creator_id_is_acting_user (C := MemStore.collaborators)
              Sample.user42 Sample.body Sample.world)
    as [(created & w' & Hrun & Hcreate & _ & Hcreator) _].
  - intros d t. destruct t as [? ? ? [| |?] ? ? ? ?]; reflexivity.
  - exists created, w'. split; [exact Hrun|]. split; [exact Hcreator|].
    apply (f_equal fst) in Hcreate. cbn [fst] in Hcreate.
    rewrite <- Hcreate. reflexivity.
Defined.

(** Task 7 of story 3 is deleted by user 42. *)
Lemma delete_emits_before_removing_witness :
  TasksController.delete (C := MemStore.collaborators) Sample.user42 7
                         Sample.world =
  (Return tt,
   MemStore.world
     (MemStore.remove Sample.rows 7)
     [Emitted (task_deleted_event (Some 3) (Some "retire") (Some 42));
      Deleted 7]
     (set_status_code 204 Sample.fresh)).
Proof.
  apply (delete_emits_before_removing (C := MemStore.collaborators)
           Sample.user42 7 Sample.world
           (Sample.row 7 (Some 3) None "retire" "merged")).
  reflexivity.
Defined.



(** C8 does not hold as stated.  There is no task 9, and what [get_one]
    raises for it is wsme's [ClientSideError] itself, not a [NotFound],
    whatever message the [NotFound] is built with. *)
Lemma get_one_raises_no_NotFound :
  task_get (Collaborators := MemStore.collaborators)
           (db Sample.world) (Some 9) = None
  /\ fst (TasksController.get_one (C := MemStore.collaborators) 9
                                  Sample.world) =
     Raise (ClientSideError ClientSideError_class
                            (Some "Task <built-in function id> not found")
                            (Some 404))
  /\ (forall message : option string,
        fst (TasksController.get_one (C := MemStore.collaborators) 9
                                     Sample.world) <>
        Raise (NotFound message)).
Proof.
  split; [reflexivity|]. split; [reflexivity|].
  intros message. discriminate.
Qed.

(** There is no task 9. *)
Lemma delete_missing_task_unguarded_witness :
  TasksController.delete (C := MemStore.collaborators) Sample.user42 9
                         Sample.world =
  (Raise (AttributeError "'NoneType' object has no attribute 'story_id'"),
   Sample.world).
Proof.
  apply (delete_missing_task_unguarded (C := MemStore.collaborators)
           Sample.user42 9 Sample.world).
  reflexivity.
Defined.

(** ** The exception hierarchy at work *)

Section Errors.
Import errors.

Lemma append_assoc (a b c : string) : (a +:+ b) +:+ c = a +:+ (b +:+ c).
Proof.
  induction a as [|ch a IH]; [reflexivity|].
  change (String ch ((a +:+ b) +:+ c) = String ch (a +:+ (b +:+ c))).
  now rewrite IH.
Qed.

Lemma append_nil_r (a : string) : a +:+ "" = a.
Proof.
  induction a as [|ch a IH]; [reflexivity|].
  change (String ch (a +:+ "") = String ch a). now rewrite IH.
Qed.

Lemma join_cons (x y : string) (rest : list string) :
  join (x :: y :: rest) = x +:+ " " +:+ join (y :: rest).
Proof. reflexivity. Qed.

Lemma starts_with_join (p x : string) (rest : list string) :
  starts_with p x -> starts_with p (join (x :: rest)).
Proof.
  intros [t ->]. destruct rest as [|y rest].
  - now exists t.
  - rewrite join_cons. exists (t +:+ " " +:+ join (y :: rest)).
    now rewrite append_assoc.
Qed.

Lemma ends_with_join (q x : string) (front : list string) :
  ends_with q x -> ends_with q (join (front ++ [x])).
Proof.
  intros [t ->].
  induction front as [|y front IH].
  - now exists t.
  - destruct IH as [u Hu].
    change ((y :: front) ++ [t +:+ q]) with (y :: (front ++ [t +:+ q])).
    destruct (front ++ [t +:+ q]) as [|z zs] eqn:Hl.
    + now destruct front.
    + rewrite join_cons, Hu. exists (y +:+ " " +:+ u).
      now rewrite !append_assoc.
Qed.

Lemma starts_with_refl (s : string) : starts_with s s.
Proof. exists "". now rewrite append_nil_r. Qed.

Lemma ends_with_refl (s : string) : ends_with s s.
Proof. now exists "". Qed.

Lemma ends_with_nonempty (q s : string) :
  q <> "" -> ends_with q s -> String.eqb s "" = false.
Proof.
  intros Hq [t ->]. apply String.eqb_neq.
  destruct t as [|ch t]; [exact Hq|discriminate].
Qed.
Lemma starts_with_nonempty (p s : string) :
  p <> "" -> starts_with p s -> String.eqb s "" = false.
Proof.
  intros Hp [t ->]. apply String.eqb_neq.
  destruct p as [|ch p]; [contradiction|discriminate].
Qed.

Lemma truthy_join (p x : string) (rest : list string) :
  p <> "" -> starts_with p x -> truthy (Some (join (x :: rest))) = true.
Proof.
  intros Hp Hx. unfold truthy.
  now rewrite (starts_with_nonempty p _ Hp (starts_with_join _ _ rest Hx)).
Qed.

Lemma ends_with_join_cons (q y : string) (rest : list string) :
  rest <> [] -> ends_with q (join rest) -> ends_with q (join (y :: rest)).
Proof.
  intros Hrest [t Ht]. destruct rest as [|z zs]; [contradiction|].
  rewrite join_cons, Ht. exists (y +:+ " " +:+ t).
  now rewrite !append_assoc.
Qed.

Lemma starts_with_join2 (x p y : string) (rest : list string) :
  starts_with p y -> starts_with (x +:+ " " +:+ p) (join (x :: y :: rest)).
Proof.
  intros Hy. rewrite join_cons.
  destruct (starts_with_join p y rest Hy) as [t ->].
  exists t. now rewrite !append_assoc.
Qed.

Ltac last_word :=
  repeat first
    [ apply ends_with_join_cons; [discriminate|]
    | match goal with
      | |- ends_with _ (join [?x]) => change (join [x]) with x
      end ];
  apply ends_with_refl.

Ltac first_word :=
  first
    [ apply starts_with_join2; apply starts_with_join;
      apply starts_with_refl
    | apply starts_with_join; apply starts_with_refl
    | apply starts_with_join; apply starts_with_join;
      apply starts_with_refl ].

Ltac given :=
  match goal with
  | |- context [truthy (Some (join (?x :: ?rest)))] =>
      rewrite (truthy_join x x rest)
        by first [discriminate | apply starts_with_refl]
  end.

(** The two constructors that build a text keep the status their base
    constructor set. *)
Lemma DBDuplicateEntry_init_code (message' object_name value : option string)
    (status_code : option Z) (self : instance) :
  code (DBDuplicateEntry_init message' object_name value status_code self) =
  code (DBException_init message' status_code self).
Proof.
  unfold DBDuplicateEntry_init.
  repeat match goal with
         | |- context [if ?b then _ else _] => destruct b
         end; reflexivity.
Qed.

Lemma DBReferenceError_init_code
    (message' object_name value key : option string)
    (status_code : option Z) (self : instance) :
  code (DBReferenceError_init message' object_name value key status_code
                              self) =
  code (DBException_init message' status_code self).
Proof.
  unfold DBReferenceError_init.
  repeat match goal with
         | |- context [if ?b then _ else _] => destruct b
         end; reflexivity.
Qed.

(** X1. Every database exception carries a status that is a number other
    than 0: a [status_code] that is missing or 0 becomes 400, any other
    is kept, in [DBException] and in the classes that inherit or extend
    its constructor.  [StoryboardException] itself hands the
    [status_code] on as it is, [None] included. *)
Theorem db_exception_status_defaults_to_400
    (message' object_name value key : option string)
    (status_code : option Z) (self : instance) :
  (exists c : Z,
     code (DBException_init message' status_code self) = Val c
     /\ code (DBDuplicateEntry_init message' object_name value status_code
                                    self) = Val c
     /\ code (DBReferenceError_init message' object_name value key
                                    status_code self) = Val c
     /\ c <> 0
     /\ (status_code = None \/ status_code = Some 0 -> c = 400)
     /\ (forall n : Z, status_code = Some n -> n <> 0 -> c = n))
  /\ code (StoryboardException_init message' status_code self) =
     assign status_code.
Proof.
  split; [|reflexivity].
  rewrite DBDuplicateEntry_init_code, DBReferenceError_init_code.
  unfold DBException_init, StoryboardException_init, ClientSideError_init.
  cbn [code]. destruct status_code as [n|]; cbn [not_status].
  - destruct (Z.eqb_spec n 0) as [->|Hn]; cbn [assign].
    + exists 400. repeat split; try lia. intros n [= <-]. lia.
    + exists n. repeat split; try assumption.
      * intros [H|H]; [discriminate|]. now injection H as ->.
      * now intros m [= ->].
  - exists 400. cbn [assign]. repeat split; try lia. discriminate.
Qed.

(** X2. [str] of an exception is the fixed text of its class, whatever
    message, details and status the constructor was given: for every
    class but [NotEmpty]. *)
Theorem str_is_the_class_message
    (message' object_name value key : option string)
    (status_code : option Z) :
  __str__ (StoryboardException message' status_code) =
    "An unknown exception occurred"
  /\ __str__ (NotFound message') = "Object not found"
  /\ __str__ (DBException message' status_code) = "Database Exception"
  /\ __str__ (DBDuplicateEntry message' object_name value status_code) =
     "Database object already exists."
  /\ __str__ (DBConnectionError message' status_code) =
     "Connection to database failed."
  /\ __str__ (ColumnError message' status_code) =
     "Column is invalid or not found"
  /\ __str__ (DBDeadLock message' status_code) = "Database in dead lock"
  /\ __str__ (DBInvalidUnicodeParameter message' status_code) =
     "Unicode parameter is passed to a database without encoding directive"
  /\ __str__ (DBMigrationError message' status_code) =
     "migrations could not be completed successfully"
  /\ __str__ (DBReferenceError message' object_name value key status_code) =
     "Foreign key error."
  /\ __str__ (DBInvalidSortKey message' status_code) = "Invalid sort field".
Proof.
  repeat split; try reflexivity.
  - unfold DBDuplicateEntry, DBDuplicateEntry_init.
    repeat match goal with
           | |- context [if ?b then _ else _] => destruct b
           end; reflexivity.
  - unfold DBReferenceError, DBReferenceError_init.
    repeat match goal with
           | |- context [if ?b then _ else _] => destruct b
           end; reflexivity.
Qed.

(** X3. [NotEmpty] is the one class whose [str] shows the message it was
    given; without a message, or with an empty one, [str] is the text of
    the class.  Its constructor runs no base constructor, so the object
    gets neither [msg] nor [code]. *)
Theorem NotEmpty_str_is_its_message (message' : option string) :
  (forall s : string,
     message' = Some s -> s <> "" -> __str__ (NotEmpty message') = s)
  /\ (message' = None \/ message' = Some "" ->
      __str__ (NotEmpty message') = "Database object must be empty")
  /\ msg (NotEmpty message') = Unset
  /\ code (NotEmpty message') = Unset.
Proof.
  unfold NotEmpty, NotEmpty_init, __str__, message.
  split; [|split; [|split]].
  - intros s -> Hs. cbn [truthy].
    now rewrite (proj2 (String.eqb_neq s "") Hs).
  - now intros [->| ->].
  - now destruct (truthy message').
  - now destruct (truthy message').
Qed.

(** X4. A [DBDuplicateEntry] without an object name and a value keeps
    the message it was given as its [msg], [None] included: the text of
    the class is not filled in. *)
Theorem DBDuplicateEntry_without_details
    (message' object_name value : option string) (status_code : option Z) :
  truthy object_name = false ->
  truthy value = false ->
  msg (DBDuplicateEntry message' object_name value status_code) =
  assign message'.
Proof.
  intros Ho Hv. unfold DBDuplicateEntry, DBDuplicateEntry_init.
  now rewrite Ho, Hv.
Qed.

(** X5. A [DBDuplicateEntry] with an object name or a value has a [msg]
    that ends with "already exists." and begins with the message it was
    given, then "Database object"; with no message, or an empty one, it
    begins with "Database object". *)
Theorem DBDuplicateEntry_with_details
    (message' object_name value : option string) (status_code : option Z) :
  truthy object_name || truthy value = true ->
  exists s : string,
    msg (DBDuplicateEntry message' object_name value status_code) = Val s
    /\ ends_with "already exists." s
    /\ (truthy message' = true ->
        starts_with (text message' +:+ " Database object") s)
    /\ (truthy message' = false -> starts_with "Database object" s).
Proof.
  intros Hgiven. unfold DBDuplicateEntry, DBDuplicateEntry_init.
  rewrite Hgiven.
  destruct (truthy object_name), (truthy value), (truthy message');
    try discriminate Hgiven;
    cbn [app]; given;
    cbn [msg set_msg text]; eexists; (split; [reflexivity|]);
    (split; [last_word|]); split; intros Hm; try discriminate Hm;
    first_word.
Qed.

(** X6. A [DBReferenceError] without an object name, a value and a key
    keeps the message it was given as its [msg], [None] included. *)
Theorem DBReferenceError_without_details
    (message' object_name value key : option string)
    (status_code : option Z) :
  truthy object_name = false ->
  truthy value = false ->
  truthy key = false ->
  msg (DBReferenceError message' object_name value key status_code) =
  assign message'.
Proof.
  intros Ho Hv Hk. unfold DBReferenceError, DBReferenceError_init.
  now rewrite Ho, Hv, Hk.
Qed.

(** X7. A [DBReferenceError] with an object name, a value or a key has a
    [msg] that begins with the message it was given or, without one,
    with "Foreign key error."; it ends with "is invalid." when a value
    or a key is given and with the quoted object name and a full stop
    otherwise. *)
Theorem DBReferenceError_with_details
    (message' object_name value key : option string)
    (status_code : option Z) :
  truthy object_name || truthy value || truthy key = true ->
  exists s : string,
    msg (DBReferenceError message' object_name value key status_code) =
    Val s
    /\ (truthy message' = true -> starts_with (text message') s)
    /\ (truthy message' = false -> starts_with "Foreign key error." s)
    /\ (truthy value || truthy key = true -> ends_with "is invalid." s)
    /\ (truthy value || truthy key = false ->
        ends_with ("'" +:+ text object_name +:+ "'.") s).
Proof.
  intros Hgiven. unfold DBReferenceError, DBReferenceError_init.
  rewrite Hgiven.
  destruct (truthy object_name), (truthy value), (truthy key),
           (truthy message');
    try discriminate Hgiven;
    cbn [app orb]; given;
    cbn [msg set_msg text]; eexists; (split; [reflexivity|]);
    repeat split; intros Hm; try discriminate Hm;
    first [ last_word | first_word ].
Qed.
End Errors.

(** ** More on listing *)

Section ListingFurther.
Context `{C : Collaborators}.
Variable CONF : Config.

(** X8. The effective limit never exceeds the configured maximum, is at
    least 1 whenever the maximum is, grows with the limit asked for, and
    is a fixed point: asking for the effective limit gives it back. *)
Theorem effective_limit_bounds (limit : option Z) :
  TasksController.effective_limit CONF limit <= page_size_maximum CONF
  /\ (1 <= page_size_maximum CONF ->
      1 <= TasksController.effective_limit CONF limit)
  /\ TasksController.effective_limit CONF
       (Some (TasksController.effective_limit CONF limit)) =
     TasksController.effective_limit CONF limit
  /\ (forall L1 L2 : Z,
        L1 <= L2 ->
        TasksController.effective_limit CONF (Some L1) <=
        TasksController.effective_limit CONF (Some L2)).
Proof.
  unfold TasksController.effective_limit.
  destruct limit as [L|]; repeat split; intros; lia.
Qed.

(** X9. A listing reads the store and writes three headers at most: the
    store, the trace and the status code are as before, and so is every
    header other than [X-Limit], [X-Total] and [X-Marker]. *)
Theorem get_all_only_writes_its_headers
    (story_id assignee_id marker limit : option Z)
    (sort_field sort_dir : string) (w : World) :
  let w' := snd (TasksController.get_all CONF story_id assignee_id marker
                                         limit sort_field sort_dir w) in
  db w' = db w
  /\ trace w' = trace w
  /\ status_code (response w') = status_code (response w)
  /\ (forall name : string,
        name <> "X-Limit" -> name <> "X-Total" -> name <> "X-Marker" ->
        headers (response w') !! name = headers (response w) !! name).
Proof.
  rewrite get_all_run. cbn zeta. cbn [snd db trace response].
  unfold listing_response.
  destruct (TasksController.effective_marker _ _);
    repeat split; intros; cbn [headers set_header];
    now rewrite ?lookup_insert_ne by congruence.
Qed.

(** X10. A marker that resolves to a task of the story listed is
    honoured: the store is asked for the page after that task, and
    [X-Marker] reports its id. *)
Theorem get_all_honours_marker_of_the_story
    (story_id assignee_id marker limit : option Z)
    (sort_field sort_dir : string) (w : World) (t : models.Task) :
  task_get (db w) marker = Some t ->
  models.story_id t = story_id ->
  exists w' : World,
    TasksController.get_all CONF story_id assignee_id marker limit
                            sort_field sort_dir w =
    (Return (map from_db_model
               (task_get_all (db w) (Some t)
                  (TasksController.effective_limit CONF limit)
                  assignee_id story_id sort_field sort_dir)),
     w')
    /\ headers (response w') !! "X-Marker" = Some (str (models.id t)).
Proof.
  intros Hget Hstory. rewrite get_all_run. cbn zeta. rewrite Hget.
  unfold TasksController.effective_marker.
  rewrite (py_ne_false _ _ Hstory).
  eexists. split; [reflexivity|].
  cbn [response listing_response set_header headers].
  apply lookup_insert_eq.
Qed.

(** X11. A marker id the store does not resolve is dropped like a marker
    of another story: the listing is the one without a marker.  (The
    store is taken to have no task with id [None].) *)
Theorem get_all_unknown_marker_discarded
    (story_id assignee_id limit : option Z) (marker : Z)
    (sort_field sort_dir : string) (w : World) :
  task_get (db w) None = None ->
  task_get (db w) (Some marker) = None ->
  TasksController.get_all CONF story_id assignee_id (Some marker) limit
                          sort_field sort_dir w =
  TasksController.get_all CONF story_id assignee_id None limit
                          sort_field sort_dir w.
Proof.
  intros Hnone Hget. rewrite !get_all_run. cbn zeta.
  now rewrite Hnone, Hget.
Qed.
End ListingFurther.

(** ** Updates *)

Section Updates.
Context `{C : Collaborators}.
Variable request : Request.

(** X12. An update of a task the store knows returns the updated task
    after writing to the store once and then emitting the events of the
    change: the snapshot they compare with, and take story and title
    from, is the one read before the write.  The body goes to the store
    without its unset attributes, and the response is not touched. *)
Theorem put_updates_then_reports (task_id : Z) (task : Task) (w : World)
    (original_task updated_task : models.Task) (d' : DB) :
  task_get (db w) (Some task_id) = Some original_task ->
  task_update (db w) task_id (as_dict true task) = (d', Some updated_task) ->
  TasksController.put request task_id task w =
  (Return (from_db_model updated_task),
   {| db := d';
      trace := trace w ++
               Updated task_id (as_dict true task) ::
               map Emitted (diff_events (current_user_id request)
                                        original_task updated_task);
      response := response w |}).
Proof.
  intros Hget Hupdate. unfold TasksController.put, bind at 1 2.
  unfold query at 1, command at 1. cbn [db]. rewrite Hget, Hupdate.
  unfold bind. rewrite post_timeline_events_run.
  cbn [db trace response ret]. now rewrite <- app_assoc.
Qed.

(** X13. An update the store refuses for want of the task raises the
    client-side error with status 404 after the write was attempted:
    no event is emitted and the response is not touched. *)
Theorem put_missing_task_404 (task_id : Z) (task : Task) (w : World)
    (d' : DB) :
  task_update (db w) task_id (as_dict true task) = (d', None) ->
  TasksController.put request task_id task w =
  (Raise TasksController.not_found,
   {| db := d';
      trace := trace w ++ [Updated task_id (as_dict true task)];
      response := response w |})
  /\ status_of TasksController.not_found = Some 404.
Proof.
  intros Hupdate. split; [|reflexivity].
  run_controller. now rewrite Hupdate.
Qed.

(** X14. When only the status differs, the mapper emits the status
    change with the old and the new status, and nothing else. *)
Theorem status_change_alone_emits_one_event
    (original_task updated_task : models.Task) (w : World) :
  models.status original_task <> models.status updated_task ->
  models.priority original_task = models.priority updated_task ->
  models.assignee_id original_task = models.assignee_id updated_task ->
  TasksController._post_timeline_events request original_task updated_task
                                        w =
  (Return tt,
   {| db := db w;
      trace := trace w ++
               [Emitted (task_status_changed_event
                           (models.story_id original_task)
                           (models.title original_task)
                           (current_user_id request)
                           (models.status original_task)
                           (models.status updated_task))];
      response := response w |}).
Proof.
  intros Hstatus Hpriority Hassignee.
  rewrite post_timeline_events_run. unfold diff_events.
  now rewrite (py_ne_true _ _ Hstatus), (py_ne_false _ _ Hpriority),
              (py_ne_false _ _ Hassignee).
Qed.

(** X15. When status, priority and assignee all differ, the mapper emits
    three events, in the order status, priority, assignee. *)
Theorem three_changes_emit_three_events
    (original_task updated_task : models.Task) (w : World) :
  models.status original_task <> models.status updated_task ->
  models.priority original_task <> models.priority updated_task ->
  models.assignee_id original_task <> models.assignee_id updated_task ->
  TasksController._post_timeline_events request original_task updated_task
                                        w =
  (Return tt,
   {| db := db w;
      trace := trace w ++
               [Emitted (task_status_changed_event
                           (models.story_id original_task)
                           (models.title original_task)
                           (current_user_id request)
                           (models.status original_task)
                           (models.status updated_task));
                Emitted (task_priority_changed_event
                           (models.story_id original_task)
                           (models.title original_task)
                           (current_user_id request)
                           (models.priority original_task)
                           (models.priority updated_task));
                Emitted (task_assignee_changed_event
                           (models.story_id original_task)
                           (models.title original_task)
                           (current_user_id request)
                           (models.assignee_id original_task)
                           (models.assignee_id updated_task))];
      response := response w |}).
Proof.
  intros Hstatus Hpriority Hassignee.
  rewrite post_timeline_events_run. unfold diff_events.
  now rewrite (py_ne_true _ _ Hstatus), (py_ne_true _ _ Hpriority),
              (py_ne_true _ _ Hassignee).
Qed.

(** X16. Whatever the two snapshots, the mapper emits at least one event
    and at most three; each carries the story and the title of the
    original snapshot and the acting user, also when the update changed
    them; and the generic event is among them exactly when no tracked
    field differs. *)
Theorem update_events_are_about_the_original
    (original_task updated_task : models.Task) (w : World) :
  exists events : list TimelineEvent,
    TasksController._post_timeline_events request original_task
                                          updated_task w =
    (Return tt,
     {| db := db w;
        trace := trace w ++ map Emitted events;
        response := response w |})
    /\ (1 <= length events <= 3)%nat
    /\ Forall (about (models.story_id original_task)
                     (models.title original_task)
                     (current_user_id request)) events
    /\ (existsb is_details_changed events = true <->
        differing original_task updated_task = 0%nat).
Proof.
  exists (diff_events (current_user_id request) original_task updated_task).
  split; [apply post_timeline_events_run|].
  unfold diff_events, differing.
  destruct (py_ne (models.status original_task) _),
           (py_ne (models.priority original_task) _),
           (py_ne (models.assignee_id original_task) _);
    cbn; (split; [lia|]);
    (split; [repeat constructor|]); split; intros H;
    first [reflexivity | discriminate H].
Qed.
End Updates.

(** ** After a deletion *)

Section AfterDeletion.
Context `{C : Collaborators}.
Variable request : Request.

(** X17. Deleting is not idempotent.  On a store where a deleted id no
    longer resolves, a second [delete] of the same task raises the
    [AttributeError] of the unguarded read, with nothing emitted or
    removed beyond what the first did, and [get_one] after the deletion
    raises the 404 error. *)
Theorem delete_twice_fails (task_id : Z) (w : World) (t : models.Task) :
  forgets_deleted ->
  task_get (db w) (Some task_id) = Some t ->
  let after := snd (TasksController.delete request task_id w) in
  bind (TasksController.delete request task_id)
       (fun _ => TasksController.delete request task_id) w =
  (Raise (AttributeError "'NoneType' object has no attribute 'story_id'"),
   after)
  /\ bind (TasksController.delete request task_id)
          (fun _ => TasksController.get_one task_id) w =
     (Raise TasksController.not_found, after).
Proof.
  intros Hforget Hget after. subst after.
  assert (Hfirst : TasksController.delete request task_id w =
    (Return tt,
     {| db := task_delete (db w) task_id;
        trace := (trace w ++
                  [Emitted (task_deleted_event (models.story_id t)
                              (models.title t) (current_user_id request))])
                 ++ [Deleted task_id];
        response := set_status_code 204 (response w) |})).
  { run_controller. now rewrite Hget. }
  split; unfold bind at 1; rewrite Hfirst; cbn [snd]; run_controller;
    now rewrite Hforget.
Qed.
End AfterDeletion.

(** ** The further properties at work *)

Example duplicate_entry_text :
  errors.msg (errors.DBDuplicateEntry None (Some "users") (Some "bob") None)
  = Val "Database object 'users' with field value 'bob' already exists."
  /\ errors.msg (errors.DBDuplicateEntry (Some "Conflict.") (Some "users")
                                         None (Some 409))
     = Val ("Conflict. Database object 'users' with some of unique fields "
            +:+ "already exists.")
  /\ errors.code (errors.DBDuplicateEntry (Some "Conflict.") (Some "users")
                                          None (Some 409)) = Val 409.
Proof. now repeat split. Qed.

Example reference_error_text :
  errors.msg (errors.DBReferenceError None (Some "tasks") (Some "12")
                                      (Some "story_id") None)
  = Val ("Foreign key error. Error in object 'tasks'. "
         +:+ "Field 'story_id' value '12' is invalid.")
  /\ errors.msg (errors.DBReferenceError (Some "Bad link.") (Some "tasks")
                                         None None (Some 0))
     = Val "Bad link. Error in object 'tasks'."
  /\ errors.code (errors.DBReferenceError (Some "Bad link.") (Some "tasks")
                                          None None (Some 0)) = Val 400.
Proof. now repeat split. Qed.

(** An empty value and no object name are no details. *)
Lemma DBDuplicateEntry_without_details_witness :
  errors.msg (errors.DBDuplicateEntry (Some "boom") None (Some "") None) =
  Val "boom".
Proof.
  apply (DBDuplicateEntry_without_details (Some "boom") None (Some "") None);
    reflexivity.
Defined.

Lemma DBDuplicateEntry_with_details_witness :
  exists s : string,
    errors.msg (errors.DBDuplicateEntry (Some "Conflict.") (Some "users")
                                        (Some "bob") None) = Val s
    /\ errors.ends_with "already exists." s
    /\ (true = true ->
        errors.starts_with ("Conflict." +:+ " Database object") s)
    /\ (true = false -> errors.starts_with "Database object" s).
Proof.
  apply (DBDuplicateEntry_with_details (Some "Conflict.") (Some "users")
                                       (Some "bob") None).
  reflexivity.
Defined.

Lemma DBReferenceError_without_details_witness :
  errors.msg (errors.DBReferenceError None (Some "") None None (Some 500)) =
  Null.
Proof.
  apply (DBReferenceError_without_details None (Some "") None None
                                          (Some 500)); reflexivity.
Defined.

Lemma DBReferenceError_with_details_witness :
  exists s : string,
    errors.msg (errors.DBReferenceError None (Some "tasks") None
                                        (Some "story_id") None) = Val s
    /\ (false = true -> errors.starts_with "None" s)
    /\ (false = false -> errors.starts_with "Foreign key error." s)
    /\ (true = true -> errors.ends_with "is invalid." s)
    /\ (true = false -> errors.ends_with ("'" +:+ "tasks" +:+ "'.") s).
Proof.
  apply (DBReferenceError_with_details None (Some "tasks") None
                                       (Some "story_id") None).
  reflexivity.
Defined.

(** In story 3, marker 5 names a task of story 3. *)
Lemma get_all_honours_marker_of_the_story_witness :
  exists w' : World,
    TasksController.get_all (C := MemStore.collaborators) Sample.stock
      (Some 3) None (Some 5) None "id" "asc" Sample.world =
    (Return [MemStore.to_api (Sample.row 7 (Some 3) None "retire" "merged")],
     w')
    /\ headers (response w') !! "X-Marker" = Some "5".
Proof.
  apply (get_all_honours_marker_of_the_story (C := MemStore.collaborators)
           Sample.stock (Some 3) None (Some 5) None "id" "asc" Sample.world
           (Sample.row 5 (Some 3) (Some 5) "ship" "review"));
    reflexivity.
Defined.

(** There is no task 9 to start after. *)
Lemma get_all_unknown_marker_discarded_witness :
  TasksController.get_all (C := MemStore.collaborators) Sample.stock
    (Some 3) None (Some 9) None "id" "asc" Sample.world =
  TasksController.get_all (C := MemStore.collaborators) Sample.stock
    (Some 3) None None None "id" "asc" Sample.world.
Proof.
  apply (get_all_unknown_marker_discarded (C := MemStore.collaborators)
           Sample.stock (Some 3) None None 9 "id" "asc" Sample.world);
    reflexivity.
Defined.

(** User 42 moves task 1 to review. *)
Lemma put_updates_then_reports_witness :
  TasksController.put (C := MemStore.collaborators) Sample.user42 1
                      SampleUpdate.review Sample.world =
  (Return (MemStore.to_api SampleUpdate.reviewed),
   MemStore.world
     (fst (MemStore.update Sample.rows 1 SampleUpdate.review))
     [Updated (C := MemStore.collaborators) 1 SampleUpdate.review;
      Emitted (task_status_changed_event (Some 3) (Some "parse") (Some 42)
                                         (Some "todo") (Some "review"))]
     Sample.fresh).
Proof.
  apply (put_updates_then_reports (C := MemStore.collaborators)
           Sample.user42 1 SampleUpdate.review Sample.world
           SampleUpdate.before SampleUpdate.reviewed
           (fst (MemStore.update Sample.rows 1 SampleUpdate.review)));
    reflexivity.
Defined.

(** There is no task 9 to update. *)
Lemma put_missing_task_404_witness :
  fst (TasksController.put (C := MemStore.collaborators) Sample.user42 9
                           SampleUpdate.review Sample.world) =
  Raise (ClientSideError ClientSideError_class (Some task_not_found_msg)
                         (Some 404)).
Proof.
  destruct (put_missing_task_404 (C := MemStore.collaborators)
              Sample.user42 9 SampleUpdate.review Sample.world
              Sample.rows) as [Hrun _].
  - reflexivity.
  - now rewrite Hrun.
Defined.

Lemma status_change_alone_emits_one_event_witness :
  TasksController._post_timeline_events (C := MemStore.collaborators)
    Sample.user42 SampleUpdate.before SampleUpdate.reviewed Sample.world =
  (Return tt,
   MemStore.world Sample.rows
     [Emitted (task_status_changed_event (Some 3) (Some "parse") (Some 42)
                                         (Some "todo") (Some "review"))]
     Sample.fresh).
Proof.
  apply (status_change_alone_emits_one_event (C := MemStore.collaborators)
           Sample.user42 SampleUpdate.before SampleUpdate.reviewed
           Sample.world).
  - discriminate.
  - reflexivity.
  - reflexivity.
Defined.

Lemma three_changes_emit_three_events_witness :
  TasksController._post_timeline_events (C := MemStore.collaborators)
    Sample.user42 SampleUpdate.before SampleUpdate.reworked Sample.world =
  (Return tt,
   MemStore.world Sample.rows
     [Emitted (task_status_changed_event (Some 3) (Some "parse") (Some 42)
                                         (Some "todo") (Some "inprogress"));
      Emitted (task_priority_changed_event (Some 3) (Some "parse") (Some 42)
                                           (Some "low") (Some "high"));
      Emitted (task_assignee_changed_event (Some 3) (Some "parse") (Some 42)
                                           None (Some 5))]
     Sample.fresh).
Proof.
  apply (three_changes_emit_three_events (C := MemStore.collaborators)
           Sample.user42 SampleUpdate.before SampleUpdate.reworked
           Sample.world); discriminate.
Defined.

Lemma MemStore_forgets_deleted :
  forgets_deleted (C := MemStore.collaborators).
Proof.
  intros d i. cbn. induction d as [|r d IH]; [reflexivity|].
  cbn. destruct (MemStore.has_id i r) eqn:Hr; cbn; [exact IH|].
  now rewrite Hr.
Qed.

(** Task 7 is deleted twice. *)
Lemma delete_twice_fails_witness :
  fst (bind (TasksController.delete (C := MemStore.collaborators)
               Sample.user42 7)
            (fun _ => TasksController.delete Sample.user42 7)
            Sample.world) =
  Raise (AttributeError "'NoneType' object has no attribute 'story_id'").
Proof.
  destruct (delete_twice_fails (C := MemStore.collaborators) Sample.user42
              7 Sample.world
              (Sample.row 7 (Some 3) None "retire" "merged")
              MemStore_forgets_deleted eq_refl) as [Hrun _].
  now rewrite Hrun.
Defined.
